(** * Index operations of the neo4j client (index.go)

    A shallow embedding of [index.go]: creation, listing and retrieval of
    node indexes, deletion, entry management and the two lookups.  Every
    operation performs at most one blocking call to the REST client; the
    embedding threads the state of the remote side and the list of requests
    that were issued, and records a nil dereference as a panic. *)

From stdpp Require Import base strings list gmap pretty.

Local Open Scope Z_scope.
Local Open Scope string_scope.
Local Open Scope list_scope.

(** ** Errors

    Go's [error] interface; [nil] is [None].  [NotFound] and [BadResponse]
    are the package's own error values; every error made elsewhere (by
    net/url or by the REST client) is a [ForeignError]. *)
Inductive error :=
| NotFound
| BadResponse
| ForeignError (msg : string).

#[global] Instance error_eq_dec : EqDecision error.
Proof. solve_decision. Defined.

(** ** Data model *)

(** The part of [Database] that index.go reads.  The REST client [db.rc] is
    the [Transport] below. *)
Record Database := mkDatabase { HrefNodeIndex : string }.

#[global] Instance Database_eq_dec : EqDecision Database.
Proof. solve_decision. Defined.

Module indexResponse.
Record t := mk {
  HrefTemplate : string;  (* json:"template" *)
  Provider : string;      (* json:"provider", not always populated by server *)
  IndexType : string;     (* json:"type", not always populated by server *)
  LowerCase : string      (* json:"to_lower_case", not always populated by server *)
}.
(** What [new(indexResponse)] points to. *)
Definition zero : t := mk "" "" "" "".
End indexResponse.

Record index := mkIndex {
  db : option Database;   (* *Database, nil until assigned *)
  Name : string;
  HrefTemplate : string;
  Provider : string;
  IndexType : string;
  CaseSensitive : bool;
  HrefIndex : string
}.

(** What [new(index)] points to. *)
Definition index_zero : index := mkIndex None "" "" "" "" false "".

Definition set_db (idx : index) (d : Database) : index :=
  mkIndex (Some d) (Name idx) (HrefTemplate idx) (Provider idx) (IndexType idx)
          (CaseSensitive idx) (HrefIndex idx).

Definition set_Name (idx : index) (name : string) : index :=
  mkIndex (db idx) name (HrefTemplate idx) (Provider idx) (IndexType idx)
          (CaseSensitive idx) (HrefIndex idx).

Definition set_HrefIndex (idx : index) (href : string) : index :=
  mkIndex (db idx) (Name idx) (HrefTemplate idx) (Provider idx) (IndexType idx)
          (CaseSensitive idx) href.

(** [func (ni *index) populate(res *indexResponse)] *)
Definition populate (ni : index) (res : indexResponse.t) : index :=
  mkIndex (db ni) (Name ni)
          (indexResponse.HrefTemplate res)
          (indexResponse.Provider res)
          (indexResponse.IndexType res)
          (if decide (indexResponse.LowerCase res = "true") then false else true)
          (HrefIndex ni).

(** [type NodeIndex struct { index }] *)
Record NodeIndex := mkNodeIndex { NodeIndex_index : index }.

(** ** Request payloads *)

(** The local type [c] of [createIndex]. *)
Module c.
Record t := mk {
  Type_ : string;     (* json:"type,omitempty" *)
  Provider : string   (* json:"provider,omitempty" *)
}.
Definition zero : t := mk "" "".
End c.

(** The local type [p] of [createIndex]. *)
Module p.
Record t := mk {
  Name : string;   (* json:"name" *)
  Config : c.t     (* json:"config,omitempty" *)
}.
End p.

(** The local type [s] of [Add]. *)
Module s.
Record t := mk {
  Uri : string;    (* json:"uri" *)
  Key : string;    (* json:"key" *)
  Value : string   (* json:"value" *)
}.
End s.

Inductive data :=
| NoData
| CreateData (v : p.t)
| AddData (v : s.t).

(** ** JSON encoding of the payloads

    encoding/json on the struct tags above.  The [omitempty] option leaves a
    field out when its value is empty, and the empty values are false, 0, a
    nil pointer, a nil interface value and any empty array, slice, map or
    string.  A struct value is not among them: a field of struct type is
    encoded whatever its tag says. *)
#[warnings="-register-all"]
Inductive json :=
| JString (v : string)
| JObject (fields : list (string * json)).

Definition omitempty_string (key v : string) : list (string * json) :=
  if decide (v = "") then [] else [(key, JString v)].

Definition marshal_c (v : c.t) : json :=
  JObject (omitempty_string "type" (c.Type_ v) ++
           omitempty_string "provider" (c.Provider v)).

Definition marshal_p (v : p.t) : json :=
  JObject [("name", JString (p.Name v)); ("config", marshal_c (p.Config v))].

Definition marshal_s (v : s.t) : json :=
  JObject [("uri", JString (s.Uri v)); ("key", JString (s.Key v));
           ("value", JString (s.Value v))].

Definition marshal (d : data) : option json :=
  match d with
  | NoData => None
  | CreateData v => Some (marshal_p v)
  | AddData v => Some (marshal_s v)
  end.

(** The value stored under [key] in an encoded object. *)
Fixpoint assoc (key : string) (fields : list (string * json)) : option json :=
  match fields with
  | [] => None
  | (k, v) :: rest => if decide (k = key) then Some v else assoc key rest
  end.

Definition member (key : string) (j : json) : option json :=
  match j with
  | JObject fields => assoc key fields
  | JString _ => None
  end.

(** ** Path composition *)

(** Modelled from the spec: [join] is declared outside index.go.  The Path
    Composer concatenates the segments with exactly one separator between
    them, and drops the segments that are the empty string; the comment in
    [Remove] relies on the same: join ignores fragments that are empty
    strings. *)
Definition join (fragments : list string) : string :=
  String.concat "/" (filter (λ f, f ≠ "") fragments).

(** [strconv.Itoa] *)
Definition Itoa (i : Z) : string := pretty i.

(** ** External collaborators *)

(** Nodes are declared outside index.go: the response element, the node, the
    construction [n := Node{}; n.db = db; n.populate(&r)], and the two
    things read from a node. *)
Class Entities := {
  nodeResponse : Type;
  Node : Type;
  Node_populate : option Database → nodeResponse → Node;
  Node_Id : Node → Z;
  Node_HrefSelf : Node → string
}.

(** net/url.  [ParseRequestURI] returns a nil URL together with its error. *)
Class NetUrl := {
  URL : Type;
  URL_String : URL → string;
  ParseRequestURI : string → option URL * option error;
  ParseRequestURI_nil : ∀ rawurl e,
    (ParseRequestURI rawurl).2 = Some e → (ParseRequestURI rawurl).1 = None;
  (** [v := make(url.Values); v.Add("query", q); v.Encode()] *)
  Values_Encode_query : string → string
}.

Section Requests.
Context `{Entities}.

(** Where [Result] points, with what is stored there. *)
Inductive result :=
| NoResult                                             (* Result not set *)
| IndexResult (r : indexResponse.t)                    (* *indexResponse *)
| IndexMapResult (m : gmap string indexResponse.t)     (* *map[string]indexResponse *)
| NodesResult (l : list nodeResponse).                 (* *[]nodeResponse *)

(** [restclient.RequestResponse].  The [Error] field only feeds the log. *)
Record RequestResponse := mkRequest {
  Url : string;
  Method : string;
  Data : data;
  Result : result;
  ExpectedStatus : Z
}.

(** The body of a request as it goes out. *)
Definition body (rr : RequestResponse) : option json := marshal (Data rr).

(** What a call of [rc.Do] leaves behind: the status, the error, and the
    content of the place [Result] points to. *)
Record Reply := mkReply {
  reply_status : Z;
  reply_err : option error;
  reply_stored : result
}.

Definition read_indexResponse (before : indexResponse.t) (after : result)
  : indexResponse.t :=
  match after with IndexResult r => r | _ => before end.

Definition read_indexMap (before : gmap string indexResponse.t) (after : result)
  : gmap string indexResponse.t :=
  match after with IndexMapResult m => m | _ => before end.

Definition read_nodes (before : list nodeResponse) (after : result)
  : list nodeResponse :=
  match after with NodesResult l => l | _ => before end.

End Requests.

(** The REST client and the server behind it: a call takes the remote side
    from one state to the next. *)
Class Transport `{Entities} := {
  World : Type;
  Do : World → RequestResponse → Reply * World
}.

(** ** The monad of the operations

    An operation runs against the state of the remote side, appends every
    request it issues to [sent], and either returns or panics. *)
Section Monad.
Context `{Entities} `{!Transport}.

Record NetState := mkNetState {
  world : World;
  sent : list RequestResponse
}.

Inductive outcome (A : Type) :=
| Returned (a : A)
| Panicked.
#[global] Arguments Returned {A} a.
#[global] Arguments Panicked {A}.

Definition Net (A : Type) : Type := NetState → outcome A * NetState.

Definition ret {A} (a : A) : Net A := λ st, (Returned a, st).

Definition panic {A} : Net A := λ st, (Panicked, st).

Definition bind {A B} (m : Net A) (k : A → Net B) : Net B :=
  λ st, match m st with
        | (Returned a, st') => k a st'
        | (Panicked, st') => (Panicked, st')
        end.

(** [rc.Do(&rr)] *)
Definition rc_Do (rr : RequestResponse) : Net Reply :=
  λ st, let '(reply, w) := Do (world st) rr in
        (Returned reply, mkNetState w (sent st ++ [rr])).

(** [idx.db.rc.Do(&rr)]: the handle is dereferenced first. *)
Definition db_rc_Do (d : option Database) (rr : RequestResponse) : Net Reply :=
  match d with
  | Some _ => rc_Do rr
  | None => panic
  end.

End Monad.

#[global] Instance Net_ret `{Entities} `{!Transport} : MRet Net := @ret _ _.
#[global] Instance Net_bind `{Entities} `{!Transport} : MBind Net :=
  λ A B k m, bind m k.

(** [type NodeMap map[int]*Node] *)
Abbreviation NodeMap := (gmap Z Node).

(** ** The operations of index.go

    Logging ([log.Println], [logPretty]) writes to an external sink and is
    left out. *)
Section Operations.
Context `{Entities} `{NetUrl} `{!Transport}.

(** The payload of [createIndex]: [payload := p{Name: name}], then
    [payload.Config = config] when a type or a provider is given. *)
Definition payload (name idxType provider : string) : p.t :=
  let payload := p.mk name c.zero in
  if decide (idxType ≠ "" ∨ provider ≠ "")
  then p.mk (p.Name payload) (c.mk idxType provider)
  else payload.

(** [func (db *Database) createIndex(href, name, idxType, provider string)] *)
Definition createIndex (d : Database) (href name idxType provider : string)
  : Net (index * option error) :=
  let idx := index_zero in
  let idx := set_db idx d in
  let idx := set_Name idx name in
  let payload := payload name idxType provider in
  let res := indexResponse.zero in
  let rr := mkRequest href "POST" (CreateData payload) (IndexResult res) 201 in
  reply ← rc_Do rr;
  match reply_err reply with
  | Some e => mret (idx, Some e)
  | None =>
      let res := read_indexResponse res (reply_stored reply) in
      let idx := populate idx res in
      let idx := set_HrefIndex idx href in
      mret (idx, None)
  end.

(** [func (db *Database) CreateNodeIndex(name, idxType, provider string)] *)
Definition CreateNodeIndex (d : Database) (name idxType provider : string)
  : Net (option NodeIndex * option error) :=
  '(idx, err) ← createIndex d (HrefNodeIndex d) name idxType provider;
  match err with
  | Some e => mret (None, Some e)
  | None => mret (Some (mkNodeIndex idx), None)
  end.

(** [func (db *Database) indexes(href string)].  Go ranges over the decoded
    map in no particular order; the embedding takes the order of
    [map_to_list]. *)
Definition indexes (d : Database) (href : string)
  : Net (list index * option error) :=
  let res : gmap string indexResponse.t := ∅ in
  let nis : list index := [] in
  let req := mkRequest href "GET" NoData (IndexMapResult res) 0 in
  reply ← rc_Do req;
  match reply_err reply with
  | Some e => mret (nis, Some e)
  | None =>
      if decide (reply_status reply ≠ 200) then mret (nis, Some BadResponse)
      else
        let res := read_indexMap res (reply_stored reply) in
        let nis :=
          foldl (λ nis '(name, r),
                   let n := index_zero in
                   let n := set_db n d in
                   let n := set_Name n name in
                   let n := populate n r in
                   nis ++ [n])
                nis (map_to_list res) in
        mret (nis, None)
  end.

(** [func (db *Database) NodeIndexes()] *)
Definition NodeIndexes (d : Database)
  : Net (option (list NodeIndex) * option error) :=
  '(indexes, err) ← indexes d (HrefNodeIndex d);
  match err with
  | Some e => mret (None, Some e)
  | None => mret (Some (mkNodeIndex <$> indexes), None)
  end.

(** [func (db *Database) index(href, name string)].  The request carries no
    [Result], so [resp] is still what [new(indexResponse)] made when it is
    handed to [populate]. *)
Definition db_index (d : Database) (href name : string)
  : Net (index * option error) :=
  let idx := index_zero in
  let resp := indexResponse.zero in
  let idx := set_Name idx name in
  let baseUri := href in
  let rawurl := join [baseUri; name] in
  let '(u, err) := ParseRequestURI rawurl in
  match err with
  | Some e => mret (idx, Some e)
  | None =>
      match u with
      | None => panic
      | Some u =>
          let req := mkRequest (URL_String u) "GET" NoData NoResult 0 in
          reply ← rc_Do req;
          match reply_err reply with
          | Some e => mret (idx, Some e)
          | None =>
              if decide (reply_status reply = 200)
              then mret (populate idx resp, None)
              else if decide (reply_status reply = 404)
              then mret (idx, Some NotFound)
              else mret (idx, Some BadResponse)
          end
      end
  end.

(** [func (db *Database) NodeIndex(name string)] *)
Definition db_NodeIndex (d : Database) (name : string)
  : Net (option NodeIndex * option error) :=
  '(idx, err) ← db_index d (HrefNodeIndex d) name;
  match err with
  | Some e => mret (None, Some e)
  | None => mret (Some (mkNodeIndex idx), None)
  end.

(** [func (idx *index) uri()].  [u.String()] is evaluated before the error
    is looked at: on a nil [u] it panics. *)
Definition uri (idx : index) : Net (string * option error) :=
  let s := join [HrefIndex idx; Name idx] in
  let '(u, err) := ParseRequestURI s in
  match u with
  | None => panic
  | Some u => mret (URL_String u, err)
  end.

(** [func (idx *index) Delete()] *)
Definition Delete (idx : index) : Net (option error) :=
  '(uri, err) ← uri idx;
  match err with
  | Some e => mret (Some e)
  | None =>
      let req := mkRequest uri "DELETE" NoData NoResult 0 in
      reply ← db_rc_Do (db idx) req;
      match reply_err reply with
      | Some e => mret (Some e)
      | None =>
          if decide (reply_status reply = 204) then mret None
          else mret (Some BadResponse)
      end
  end.

(** [func (idx *index) Add(n *Node, key, value string)] *)
Definition Add (idx : index) (n : Node) (key value : string)
  : Net (option error) :=
  '(uri, err) ← uri idx;
  match err with
  | Some e => mret (Some e)
  | None =>
      let data := s.mk (Node_HrefSelf n) key value in
      let req := mkRequest uri "POST" (AddData data) NoResult 0 in
      reply ← db_rc_Do (db idx) req;
      match reply_err reply with
      | Some e => mret (Some e)
      | None =>
          if decide (reply_status reply = 201) then mret None
          else mret (Some BadResponse)
      end
  end.

(** [func (idx *index) Remove(n *Node, key, value string)] *)
Definition Remove (idx : index) (n : Node) (key value : string)
  : Net (option error) :=
  '(uri, err) ← uri idx;
  match err with
  | Some e => mret (Some e)
  | None =>
      let uri := if decide (key ≠ "") then join [uri; key; value] else uri in
      let uri := join [uri; Itoa (Node_Id n)] in
      let req := mkRequest uri "DELETE" NoData NoResult 0 in
      reply ← db_rc_Do (db idx) req;
      match reply_err reply with
      | Some e => mret (Some e)
      | None =>
          if decide (reply_status reply = 204) then mret None
          else mret (Some BadResponse)
      end
  end.

(** The loop that ends [Find] and [Query]:
    [n := Node{}; n.db = idx.db; n.populate(&r); nm[n.Id()] = &n]. *)
Definition collect (d : option Database) (nm : NodeMap) (resp : list nodeResponse)
  : NodeMap :=
  foldl (λ nm r, let n := Node_populate d r in <[Node_Id n := n]> nm) nm resp.

(** [func (idx *index) Find(key, value string)] *)
Definition Find (idx : index) (key value : string)
  : Net (NodeMap * option error) :=
  let nm : NodeMap := ∅ in
  '(rawurl, err) ← uri idx;
  match err with
  | Some e => mret (nm, Some e)
  | None =>
      let rawurl := join [rawurl; key; value] in
      let '(u, err) := ParseRequestURI rawurl in
      match err with
      | Some e => mret (nm, Some e)
      | None =>
          match u with
          | None => panic
          | Some u =>
              let resp : list nodeResponse := [] in
              let req := mkRequest (URL_String u) "GET" NoData (NodesResult resp) 0 in
              reply ← db_rc_Do (db idx) req;
              match reply_err reply with
              | Some e => mret (nm, Some e)
              | None =>
                  if decide (reply_status reply ≠ 200)
                  then mret (nm, Some BadResponse)
                  else
                    let resp := read_nodes resp (reply_stored reply) in
                    mret (collect (db idx) nm resp, None)
              end
          end
      end
  end.

(** [func (idx *index) Query(query string)] *)
Definition Query (idx : index) (query : string)
  : Net (NodeMap * option error) :=
  let nm : NodeMap := ∅ in
  '(rawurl, err) ← uri idx;
  match err with
  | Some e => mret (nm, Some e)
  | None =>
      let rawurl := rawurl +:+ "?" +:+ Values_Encode_query query in
      let '(u, err) := ParseRequestURI rawurl in
      match err with
      | Some e => mret (nm, Some e)
      | None =>
          match u with
          | None => panic
          | Some u =>
              let result : list nodeResponse := [] in
              let req := mkRequest (URL_String u) "GET" NoData (NodesResult result) 0 in
              reply ← db_rc_Do (db idx) req;
              match reply_err reply with
              | Some e => mret (nm, Some e)
              | None =>
                  if decide (reply_status reply ≠ 200)
                  then mret (nm, Some BadResponse)
                  else
                    let result := read_nodes result (reply_stored reply) in
                    mret (collect (db idx) nm result, None)
              end
          end
      end
  end.

(** A call is rejected locally when it returns an error and no request has
    gone out. *)
Definition rejected_locally (call : Net (option error)) (st : NetState) : Prop :=
  ∃ e, (call st).1 = Returned (Some e) ∧ sent (call st).2 = sent st.

End Operations.

(** ** What a caller can observe of a call *)
Section Observations.
Context `{Entities} `{!Transport}.

(** A call issues one request or none: afterwards [sent] is what it was,
    or what it was with one request behind it. *)
Definition at_most_one_request {A} (call : Net A) : Prop :=
  ∀ st, sent (call st).2 = sent st ∨ ∃ rr, sent (call st).2 = sent st ++ [rr].

End Observations.

(** ** A test double for the collaborators

    Stand-ins for the node type, for net/url and for a server, used to run
    the operations on concrete calls. *)
Module Fixture.

Record TestNode := mkTestNode {
  test_id : Z;
  test_self : string
}.

#[export] Instance test_entities : Entities := {|
  nodeResponse := TestNode;
  Node := TestNode;
  Node_populate := λ _ r, r;
  Node_Id := test_id;
  Node_HrefSelf := test_self
|}.

(** The strings net/url is given below either begin with a scheme or a
    slash, which [ParseRequestURI] accepts, or have neither, which it
    rejects with "invalid URI for request". *)
Definition test_parse (rawurl : string) : option string * option error :=
  if String.prefix "http://" rawurl || String.prefix "/" rawurl
  then (Some rawurl, None)
  else (None, Some (ForeignError "invalid URI for request")).

#[export] Instance test_url : NetUrl.
Proof.
  refine {| URL := string;
            URL_String := λ u, u;
            ParseRequestURI := test_parse;
            Values_Encode_query := λ q, "query=" +:+ q |}.
  intros rawurl e. unfold test_parse.
  destruct (String.prefix "http://" rawurl || String.prefix "/" rawurl);
    [discriminate | reflexivity].
Defined.

(** The server keeps the descriptors of its indexes by URL, reports
    [lower_case] as the to_lower_case of an index it creates, and serves a
    fixed array of nodes for some lookup URLs; when [down] the call does not
    complete. *)
Record TestWorld := mkTestWorld {
  down : bool;
  lower_case : string;
  served_indexes : list (string * indexResponse.t);
  served_nodes : list (string * list TestNode)
}.

Fixpoint lookup_url {A} (url : string) (l : list (string * A)) : option A :=
  match l with
  | [] => None
  | (k, v) :: rest => if decide (k = url) then Some v else lookup_url url rest
  end.

(** The client decodes a body into the place [Result] points to, when there
    is one of that shape. *)
Definition deliver (rr : RequestResponse) (sent_body : result) : result :=
  match Result rr, sent_body with
  | IndexResult _, IndexResult r => IndexResult r
  | IndexMapResult _, IndexMapResult m => IndexMapResult m
  | NodesResult _, NodesResult l => NodesResult l
  | before, _ => before
  end.

Definition serve (w : TestWorld) (rr : RequestResponse) : Reply * TestWorld :=
  if down w
  then (mkReply 0 (Some (ForeignError "connection refused")) (Result rr), w)
  else if decide (Method rr = "POST") then
    match Data rr with
    | CreateData v =>
        let r := indexResponse.mk (join [Url rr; p.Name v; "{key}"; "{value}"])
                                  (c.Provider (p.Config v))
                                  (c.Type_ (p.Config v)) (lower_case w) in
        (mkReply 201 None (deliver rr (IndexResult r)),
         mkTestWorld false (lower_case w)
                     ((join [Url rr; p.Name v], r) :: served_indexes w)
                     (served_nodes w))
    | AddData _ => (mkReply 201 None (Result rr), w)
    | NoData => (mkReply 400 None (Result rr), w)
    end
  else if decide (Method rr = "GET") then
    match lookup_url (Url rr) (served_indexes w), lookup_url (Url rr) (served_nodes w) with
    | Some r, _ => (mkReply 200 None (deliver rr (IndexResult r)), w)
    | None, Some l => (mkReply 200 None (deliver rr (NodesResult l)), w)
    | None, None => (mkReply 404 None (Result rr), w)
    end
  else if decide (Method rr = "DELETE") then (mkReply 204 None (Result rr), w)
  else (mkReply 405 None (Result rr), w).

#[export] Instance test_transport : Transport := {|
  World := TestWorld;
  Do := serve
|}.

Definition test_db : Database := mkDatabase "http://host/db/data/index/node".

Definition fresh : NetState := mkNetState (mkTestWorld false "false" [] []) [].

Definition unreachable : NetState := mkNetState (mkTestWorld true "false" [] []) [].

(** An index that [CreateNodeIndex] returned. *)
Definition people : index :=
  mkIndex (Some test_db) "people"
          "http://host/db/data/index/node/people/{key}/{value}"
          "lucene" "exact" true "http://host/db/data/index/node".

(** Its self URI, parsed. *)
Definition people_url : URL := "http://host/db/data/index/node/people".

(** The URI of the exact lookup color/red, parsed. *)
Definition red_url : URL := "http://host/db/data/index/node/people/color/red".

Definition node42 : Node := mkTestNode 42 "http://host/db/data/node/42".

Definition node7 : Node := mkTestNode 7 "http://host/db/data/node/7".

(** An array that lists node 42 twice. *)
Definition red_array : list nodeResponse := [node42; node7; node42].

(** A server that answers the lookup color/red with that array. *)
Definition red_twice : NetState :=
  mkNetState
    (mkTestWorld false "false" []
       [("http://host/db/data/index/node/people/color/red", red_array)])
    [].

(** The state after [CreateNodeIndex("people", "exact", "lucene")]. *)
Definition created : NetState :=
  (CreateNodeIndex test_db "people" "exact" "lucene" fresh).2.

(** What [NodeIndex("people")] returns once the index exists. *)
Definition fetched : index := mkIndex None "people" "" "" "" true "".

(** A server that lower-cases: it reports to_lower_case "true". *)
Definition folding : NetState := mkNetState (mkTestWorld false "true" [] []) [].

(** The state after [CreateNodeIndex("people", "fulltext", "lucene")] on it. *)
Definition folded : NetState :=
  (CreateNodeIndex test_db "people" "fulltext" "lucene" folding).2.

(** The index that creation returns. *)
Definition folding_people : index :=
  mkIndex (Some test_db) "people"
          "http://host/db/data/index/node/people/{key}/{value}"
          "lucene" "fulltext" false "http://host/db/data/index/node".

(** The index "people" with its [db] left nil. *)
Definition orphan : index :=
  mkIndex None "people" "" "" "" true "http://host/db/data/index/node".

(** A second representation of node 42, under another self link. *)
Definition node42_moved : Node := mkTestNode 42 "http://other/db/data/node/42".

(** An array in which node 42 comes in two representations, and node 7
    after them. *)
Definition moved_array : list nodeResponse := [node42; node42_moved; node7].

End Fixture.

(** ** A scripted transport, and a parser that knows bad escapes

    The transport answers the calls with the replies it was given, in order,
    and fails once they are used up.  The parser rejects, as net/url does,
    a string that has the invalid escape "%zz" in it. *)
Module Script.
Import Fixture.

Definition scripted (w : list Reply) (rr : RequestResponse)
  : Reply * list Reply :=
  match w with
  | r :: rest =>
      (mkReply (reply_status r) (reply_err r) (deliver rr (reply_stored r)), rest)
  | [] => (mkReply 0 (Some (ForeignError "connection refused")) (Result rr), [])
  end.

Definition script_transport : Transport := {|
  World := list Reply;
  Do := scripted
|}.

Definition escape_parse (rawurl : string) : option string * option error :=
  match String.index 0 "%zz" rawurl with
  | Some _ => (None, Some (ForeignError "invalid URL escape"))
  | None => test_parse rawurl
  end.

Definition escape_url : NetUrl.
Proof.
  refine {| URL := string;
            URL_String := λ u, u;
            ParseRequestURI := escape_parse;
            Values_Encode_query := λ q, "query=" +:+ q |}.
  intros rawurl e. unfold escape_parse, test_parse.
  destruct (String.index 0 "%zz" rawurl); [reflexivity|].
  destruct (String.prefix "http://" rawurl || String.prefix "/" rawurl);
    [discriminate | reflexivity].
Defined.

(** The descriptors a server lists under two names. *)
Definition listing : gmap string indexResponse.t :=
  <["people" := indexResponse.mk
                  "http://host/db/data/index/node/people/{key}/{value}"
                  "lucene" "exact" ""]>
  (<["places" := indexResponse.mk
                   "http://host/db/data/index/node/places/{key}/{value}"
                   "lucene" "fulltext" "true"]> ∅).

(** The URI of the query color:red on the index "people", parsed. *)
Definition query_url : URL :=
  "http://host/db/data/index/node/people?query=color:red".

(** A state in which the next reply is [r]. *)
Definition answering (r : Reply) : @NetState _ script_transport :=
  @mkNetState _ script_transport [r] [].

End Script.

(** * Properties *)

Ltac net_unfold :=
  unfold mbind, Net_bind, bind, mret, Net_ret, ret, panic, db_rc_Do, rc_Do in *.

(** ** Path composition *)

Lemma join_example :
  join ["http://host/index"; "people"; ""; "42"] = "http://host/index/people/42".
Proof. reflexivity. Qed.

Lemma append_assoc (a b c : string) : (a +:+ b) +:+ c = a +:+ b +:+ c.
Proof.
  induction a as [|ch a IH]; [reflexivity|].
  change (String ch ((a +:+ b) +:+ c) = String ch (a +:+ b +:+ c)).
  by rewrite IH.
Qed.

Lemma append_nonempty (a b : string) : a ≠ "" → a +:+ b ≠ "".
Proof. destruct a; [done | discriminate]. Qed.

Lemma join_pair (a b : string) : a ≠ "" → b ≠ "" → join [a; b] = a +:+ "/" +:+ b.
Proof.
  intros Ha Hb. unfold join.
  rewrite !filter_cons_True, filter_nil by done. reflexivity.
Qed.

Lemma join_triple (a b c : string) :
  a ≠ "" → b ≠ "" → c ≠ "" → join [a; b; c] = a +:+ "/" +:+ b +:+ "/" +:+ c.
Proof.
  intros Ha Hb Hc. unfold join.
  rewrite !filter_cons_True, filter_nil by done. reflexivity.
Qed.

(** An empty last segment leaves no trace. *)
Lemma join_triple_blank (a b : string) : join [a; b; ""] = join [a; b].
Proof.
  unfold join. reflexivity.
Qed.

Lemma pretty_N_go_nonempty (x : N) (acc : string) :
  acc ≠ "" → pretty_N_go x acc ≠ "".
Proof.
  revert acc. induction (N.lt_wf_0 x) as [x _ IH]. intros acc Hacc.
  destruct (decide (x = 0)%N) as [->|Hx].
  - by rewrite pretty_N_go_0.
  - rewrite pretty_N_go_step by lia. apply IH; [apply N.div_lt; lia | discriminate].
Qed.

Lemma Itoa_nonempty (i : Z) : Itoa i ≠ "".
Proof.
  unfold Itoa, pretty, pretty_Z. destruct i as [|x|x]; [discriminate| |discriminate].
  unfold pretty, pretty_positive, pretty, pretty_N.
  rewrite decide_False by lia.
  rewrite pretty_N_go_step by lia. apply pretty_N_go_nonempty. discriminate.
Qed.

Section Facts.
Context `{Entities} `{NetUrl} `{!Transport}.

(** ** The wrappers *)

Lemma CreateNodeIndex_unfold d name idxType provider st :
  CreateNodeIndex d name idxType provider st =
  match createIndex d (HrefNodeIndex d) name idxType provider st with
  | (Returned (idx, Some e), st') => (Returned (None, Some e), st')
  | (Returned (idx, None), st') => (Returned (Some (mkNodeIndex idx), None), st')
  | (Panicked, st') => (Panicked, st')
  end.
Proof.
  unfold CreateNodeIndex. net_unfold.
  destruct (createIndex _ _ _ _ _ st) as [[[idx [e|]]|] st']; reflexivity.
Qed.

Lemma NodeIndexes_unfold d st :
  NodeIndexes d st =
  match indexes d (HrefNodeIndex d) st with
  | (Returned (l, Some e), st') => (Returned (None, Some e), st')
  | (Returned (l, None), st') => (Returned (Some (mkNodeIndex <$> l), None), st')
  | (Panicked, st') => (Panicked, st')
  end.
Proof.
  unfold NodeIndexes. net_unfold.
  destruct (indexes _ _ st) as [[[l [e|]]|] st']; reflexivity.
Qed.

Lemma db_NodeIndex_unfold d name st :
  db_NodeIndex d name st =
  match db_index d (HrefNodeIndex d) name st with
  | (Returned (idx, Some e), st') => (Returned (None, Some e), st')
  | (Returned (idx, None), st') => (Returned (Some (mkNodeIndex idx), None), st')
  | (Panicked, st') => (Panicked, st')
  end.
Proof.
  unfold db_NodeIndex. net_unfold.
  destruct (db_index _ _ _ st) as [[[idx [e|]]|] st']; reflexivity.
Qed.

(** C10: whenever [createIndex], [index] or [indexes] returns an error,
    [CreateNodeIndex], [NodeIndex] and [NodeIndexes] return nil together with
    that error, so no wrapper ever returns a descriptor (or a slice) next to
    a non-nil error. *)
Theorem wrappers_return_nil_with_error d name idxType provider st e :
  (∀ idx st',
     createIndex d (HrefNodeIndex d) name idxType provider st
       = (Returned (idx, Some e), st') →
     CreateNodeIndex d name idxType provider st = (Returned (None, Some e), st'))
  ∧ (∀ idx st',
     db_index d (HrefNodeIndex d) name st = (Returned (idx, Some e), st') →
     db_NodeIndex d name st = (Returned (None, Some e), st'))
  ∧ (∀ l st',
     indexes d (HrefNodeIndex d) st = (Returned (l, Some e), st') →
     NodeIndexes d st = (Returned (None, Some e), st'))
  ∧ (∀ r st',
     CreateNodeIndex d name idxType provider st = (Returned (r, Some e), st') →
     r = None)
  ∧ (∀ r st',
     db_NodeIndex d name st = (Returned (r, Some e), st') → r = None)
  ∧ (∀ r st',
     NodeIndexes d st = (Returned (r, Some e), st') → r = None).
Proof.
  repeat split.
  - intros idx st' Hin. rewrite CreateNodeIndex_unfold, Hin. reflexivity.
  - intros idx st' Hin. rewrite db_NodeIndex_unfold, Hin. reflexivity.
  - intros l st' Hin. rewrite NodeIndexes_unfold, Hin. reflexivity.
  - intros r st'. rewrite CreateNodeIndex_unfold.
    destruct (createIndex _ _ _ _ _ st) as [[[idx [e'|]]|] st'']; congruence.
  - intros r st'. rewrite db_NodeIndex_unfold.
    destruct (db_index _ _ _ st) as [[[idx [e'|]]|] st'']; congruence.
  - intros r st'. rewrite NodeIndexes_unfold.
    destruct (indexes _ _ st) as [[[l [e'|]]|] st'']; congruence.
Qed.

(** ** Retrieval by name *)

(** What [index] does once the URL is composed and the call is made. *)
Lemma db_index_after_call d href name st u reply w :
  ParseRequestURI (join [href; name]) = (Some u, None) →
  Do (world st) (mkRequest (URL_String u) "GET" NoData NoResult 0) = (reply, w) →
  db_index d href name st =
  (Returned
     match reply_err reply with
     | Some e => (set_Name index_zero name, Some e)
     | None =>
         if decide (reply_status reply = 200)
         then (populate (set_Name index_zero name) indexResponse.zero, None)
         else if decide (reply_status reply = 404)
         then (set_Name index_zero name, Some NotFound)
         else (set_Name index_zero name, Some BadResponse)
     end,
   mkNetState w (sent st ++ [mkRequest (URL_String u) "GET" NoData NoResult 0])).
Proof.
  intros Hparse Hdo. unfold db_index. rewrite Hparse. net_unfold. rewrite Hdo.
  destruct (reply_err reply); [reflexivity|].
  repeat case_decide; reflexivity.
Qed.

(** Whatever the server answers, the descriptor [index] hands back carries
    the name it was asked for and nothing else. *)
Lemma db_index_descriptor d href name st idx e st' :
  db_index d href name st = (Returned (idx, e), st') →
  idx = mkIndex None name "" "" "" (CaseSensitive idx) "".
Proof.
  unfold db_index. destruct (ParseRequestURI _) as [u [e0|]].
  - net_unfold. intros [= <- _ _]. reflexivity.
  - destruct u as [u|]; net_unfold; [|discriminate].
    destruct (Do _ _) as [reply w]. destruct (reply_err reply).
    + intros [= <- _ _]. reflexivity.
    + repeat case_decide; intros [= <- _ _]; reflexivity.
Qed.

(** C7: when the call of [NodeIndex] completes, status 200 gives a
    descriptor and no error, status 404 gives exactly [NotFound], any other
    status gives exactly [BadResponse]; when the call fails, the error of the
    transport is returned as it is. *)
Theorem NodeIndex_status_classification d name st u reply w :
  ParseRequestURI (join [HrefNodeIndex d; name]) = (Some u, None) →
  Do (world st) (mkRequest (URL_String u) "GET" NoData NoResult 0) = (reply, w) →
  (∀ e, reply_err reply = Some e →
        (db_NodeIndex d name st).1 = Returned (None, Some e))
  ∧ (reply_err reply = None → reply_status reply = 200 →
        ∃ ni, (db_NodeIndex d name st).1 = Returned (Some ni, None))
  ∧ (reply_err reply = None → reply_status reply = 404 →
        (db_NodeIndex d name st).1 = Returned (None, Some NotFound))
  ∧ (reply_err reply = None → reply_status reply ≠ 200 →
     reply_status reply ≠ 404 →
        (db_NodeIndex d name st).1 = Returned (None, Some BadResponse)).
Proof.
  intros Hparse Hdo.
  rewrite db_NodeIndex_unfold, (db_index_after_call _ _ _ _ _ _ _ Hparse Hdo).
  repeat split.
  - intros e ->. reflexivity.
  - intros -> ->. eexists. reflexivity.
  - intros -> ->. reflexivity.
  - intros -> H200 H404. repeat case_decide; try contradiction. reflexivity.
Qed.

(** ** The self URI *)

(** C9: when [HrefIndex] joined with [Name] does not parse, [uri] calls
    [String] on the nil URL before it returns the error, so [uri] panics and
    with it [Delete], [Add], [Remove], [Find] and [Query]: none of them
    returns an error, and none issues a request. *)
Theorem uri_panics_on_malformed_self idx e n key value query st :
  (ParseRequestURI (join [HrefIndex idx; Name idx])).2 = Some e →
  uri idx st = (Panicked, st)
  ∧ Delete idx st = (Panicked, st)
  ∧ Add idx n key value st = (Panicked, st)
  ∧ Remove idx n key value st = (Panicked, st)
  ∧ Find idx key value st = (Panicked, st)
  ∧ Query idx query st = (Panicked, st).
Proof.
  intros Herr. pose proof (ParseRequestURI_nil _ _ Herr) as Hnil.
  assert (Huri : uri idx st = (Panicked, st)).
  { unfold uri. destruct (ParseRequestURI _) as [u err]. simpl in Hnil.
    subst u. reflexivity. }
  unfold Delete, Add, Remove, Find, Query. net_unfold.
  rewrite Huri. repeat split; reflexivity.
Qed.

(** [uri] on an index whose self URI parses. *)
Lemma uri_resolved idx u st :
  ParseRequestURI (join [HrefIndex idx; Name idx]) = (Some u, None) →
  uri idx st = (Returned (URL_String u, None), st).
Proof. intros Hparse. unfold uri. rewrite Hparse. reflexivity. Qed.

(** ** Removing entries *)

(** [Remove] on a resolved index: one DELETE, at the path the two [join]s
    compose. *)
Lemma Remove_resolved idx n key value st u d :
  ParseRequestURI (join [HrefIndex idx; Name idx]) = (Some u, None) →
  db idx = Some d →
  let path :=
    join [if decide (key ≠ "") then join [URL_String u; key; value]
          else URL_String u;
          Itoa (Node_Id n)] in
  let req := mkRequest path "DELETE" NoData NoResult 0 in
  Remove idx n key value st =
  (Returned
     match reply_err (Do (world st) req).1 with
     | Some e => Some e
     | None => if decide (reply_status (Do (world st) req).1 = 204)
               then None else Some BadResponse
     end,
   mkNetState (Do (world st) req).2 (sent st ++ [req])).
Proof.
  intros Hparse Hdb path req. unfold Remove. net_unfold.
  rewrite (uri_resolved _ _ _ Hparse), Hdb. fold path. fold req.
  destruct (Do (world st) req) as [reply w]. simpl.
  destruct (reply_err reply); [reflexivity|]. case_decide; reflexivity.
Qed.

(** C6: the path of the DELETE that [Remove] issues on a resolved index is
    self/key/value/id when key and value are both non-empty, self/key/id when
    only the key is non-empty, and self/id when both are empty; id is the
    node's identifier in decimal, appended in all three cases. *)
Theorem Remove_path_three_way idx n key value st u d :
  ParseRequestURI (join [HrefIndex idx; Name idx]) = (Some u, None) →
  URL_String u ≠ "" →
  db idx = Some d →
  ∃ path,
    sent (Remove idx n key value st).2
      = sent st ++ [mkRequest path "DELETE" NoData NoResult 0]
    ∧ (key ≠ "" → value ≠ "" →
       path = URL_String u +:+ "/" +:+ key +:+ "/" +:+ value +:+ "/"
              +:+ Itoa (Node_Id n))
    ∧ (key ≠ "" → value = "" →
       path = URL_String u +:+ "/" +:+ key +:+ "/" +:+ Itoa (Node_Id n))
    ∧ (key = "" → value = "" →
       path = URL_String u +:+ "/" +:+ Itoa (Node_Id n)).
Proof.
  intros Hparse Hself Hdb. eexists. split.
  { rewrite (Remove_resolved _ _ _ _ _ _ _ Hparse Hdb). reflexivity. }
  pose proof (Itoa_nonempty (Node_Id n)) as Hid.
  repeat split.
  - intros Hkey Hvalue. rewrite decide_True by done.
    rewrite join_triple by done. rewrite join_pair by (try apply append_nonempty; done).
    by rewrite !append_assoc.
  - intros Hkey ->. rewrite decide_True by done.
    rewrite join_triple_blank, (join_pair (URL_String u) key) by done.
    rewrite join_pair by (try apply append_nonempty; done).
    by rewrite !append_assoc.
  - intros -> _. rewrite decide_False by (intros Hne; by apply Hne).
    by rewrite join_pair.
Qed.

(** C2, as the code has it: with an empty key the value is never looked at.
    [Remove] does not reject the call: it composes self/id and issues the
    DELETE, exactly as it does when key and value are both empty. *)
Theorem Remove_empty_key_ignores_value idx n value st u d :
  ParseRequestURI (join [HrefIndex idx; Name idx]) = (Some u, None) →
  db idx = Some d →
  sent (Remove idx n "" value st).2
    = sent st ++ [mkRequest (join [URL_String u; Itoa (Node_Id n)])
                            "DELETE" NoData NoResult 0]
  ∧ Remove idx n "" value st = Remove idx n "" "" st.
Proof.
  intros Hparse Hdb.
  rewrite !(Remove_resolved _ _ _ _ _ _ _ Hparse Hdb).
  rewrite decide_False by (intros Hne; by apply Hne).
  split; reflexivity.
Qed.

(** ** Lookups *)

Lemma collect_snoc d (nm : NodeMap) resp r :
  collect d nm (resp ++ [r])
  = <[Node_Id (Node_populate d r) := Node_populate d r]> (collect d nm resp).
Proof. unfold collect. by rewrite foldl_snoc. Qed.

(** Every entry sits under the identifier of its own node, and the node is
    one the server listed. *)
Lemma collect_lookup d resp i n :
  collect d (∅ : NodeMap) resp !! i = Some n →
  Node_Id n = i ∧ n ∈ Node_populate d <$> resp.
Proof.
  revert i n. induction resp as [|r resp IH] using rev_ind; intros i n.
  - unfold collect. simpl. by rewrite lookup_empty.
  - rewrite collect_snoc, fmap_app, lookup_insert. case_decide as Hi.
    + intros [= <-]. split; [done|]. apply elem_of_app. right.
      simpl. apply list_elem_of_singleton. done.
    + intros Hin. destruct (IH _ _ Hin) as [Hid Hel]. split; [done|].
      apply elem_of_app. by left.
Qed.

(** The keys are the identifiers the server listed. *)
Lemma collect_dom d resp :
  dom (collect d (∅ : NodeMap) resp)
  = list_to_set (Node_Id <$> (Node_populate d <$> resp)).
Proof.
  induction resp as [|r resp IH] using rev_ind.
  - unfold collect. simpl. by rewrite dom_empty_L.
  - rewrite collect_snoc, dom_insert_L, IH, !fmap_app, list_to_set_app_L.
    apply set_eq. intros x.
    rewrite !elem_of_union, !elem_of_list_to_set, elem_of_singleton. simpl.
    rewrite list_elem_of_singleton. tauto.
Qed.

Lemma size_list_to_set_remove_dups (l : list Z) :
  size (list_to_set l : gset Z) = length (remove_dups l).
Proof.
  rewrite <- (size_list_to_set (C := gset Z) (remove_dups l))
    by apply NoDup_remove_dups.
  f_equal. apply set_eq. intros x.
  by rewrite !elem_of_list_to_set, elem_of_remove_dups.
Qed.

(** As many entries as there are distinct identifiers in the array. *)
Lemma collect_size d resp :
  size (collect d (∅ : NodeMap) resp)
  = length (remove_dups (Node_Id <$> (Node_populate d <$> resp))).
Proof.
  rewrite <- size_list_to_set_remove_dups, <- collect_dom.
  symmetry. apply size_dom.
Qed.

(** [Find] on a resolved index, once the lookup URL parses. *)
Lemma Find_resolved idx key value st u0 u d :
  ParseRequestURI (join [HrefIndex idx; Name idx]) = (Some u0, None) →
  ParseRequestURI (join [URL_String u0; key; value]) = (Some u, None) →
  db idx = Some d →
  let req := mkRequest (URL_String u) "GET" NoData (NodesResult []) 0 in
  Find idx key value st =
  (Returned
     match reply_err (Do (world st) req).1 with
     | Some e => (∅, Some e)
     | None =>
         if decide (reply_status (Do (world st) req).1 ≠ 200)
         then (∅, Some BadResponse)
         else (collect (db idx) ∅
                 (read_nodes [] (reply_stored (Do (world st) req).1)), None)
     end,
   mkNetState (Do (world st) req).2 (sent st ++ [req])).
Proof.
  intros Hself Hparse Hdb req. unfold Find. net_unfold.
  rewrite (uri_resolved _ _ _ Hself), Hparse, Hdb. fold req.
  destruct (Do (world st) req) as [reply w]. simpl.
  destruct (reply_err reply); [reflexivity|]. case_decide; reflexivity.
Qed.

(** C8: the map a successful [Find] returns is keyed by node identifier:
    each entry is a listed node stored under its own identifier, each listed
    node has its identifier as a key, and the map has one entry per distinct
    identifier, so representations that share an identifier collapse to one
    entry. *)
Theorem Find_map_keyed_by_unique_id idx key value st u0 u d reply w resp :
  ParseRequestURI (join [HrefIndex idx; Name idx]) = (Some u0, None) →
  ParseRequestURI (join [URL_String u0; key; value]) = (Some u, None) →
  db idx = Some d →
  Do (world st) (mkRequest (URL_String u) "GET" NoData (NodesResult []) 0)
    = (reply, w) →
  reply_err reply = None →
  reply_status reply = 200 →
  reply_stored reply = NodesResult resp →
  ∃ nm : NodeMap,
    (Find idx key value st).1 = Returned (nm, None)
    ∧ (∀ i n, nm !! i = Some n →
              Node_Id n = i ∧ n ∈ Node_populate (db idx) <$> resp)
    ∧ (∀ n, n ∈ Node_populate (db idx) <$> resp → is_Some (nm !! Node_Id n))
    ∧ size nm
      = length (remove_dups (Node_Id <$> (Node_populate (db idx) <$> resp))).
Proof.
  intros Hself Hparse Hdb Hdo Herr Hstatus Hstored.
  exists (collect (db idx) ∅ resp). split; [|split; [|split]].
  - rewrite (Find_resolved _ _ _ _ _ _ _ Hself Hparse Hdb), Hdo. simpl.
    rewrite Herr, Hstatus, Hstored. reflexivity.
  - apply collect_lookup.
  - intros n Hn. apply elem_of_dom. rewrite collect_dom.
    apply elem_of_list_to_set. by apply list_elem_of_fmap_2.
  - apply collect_size.
Qed.

(** ** Population *)

(** On the values the flag takes ("true", "false", or absent, which decodes
    to the empty string) [populate] sets [CaseSensitive] to its negation. *)
Lemma populate_negates_flag ni res :
  indexResponse.LowerCase res = "true"
  ∨ indexResponse.LowerCase res = "false"
  ∨ indexResponse.LowerCase res = "" →
  (CaseSensitive (populate ni res) = true
   ↔ indexResponse.LowerCase res = "false" ∨ indexResponse.LowerCase res = "")
  ∧ (CaseSensitive (populate ni res) = false
     ↔ indexResponse.LowerCase res = "true").
Proof.
  unfold populate. simpl.
  intros [Hflag | [Hflag | Hflag]]; rewrite Hflag; simpl; split; split;
    try done; try (intros [Hf | Hf]; discriminate Hf); auto.
Qed.

(** A creation hands the decoded response to [populate]: answered without
    error, it returns an index whose [CaseSensitive] is the one [populate]
    computes from the flag of the response. *)
Lemma createIndex_CaseSensitive d href name idxType provider st reply w res :
  Do (world st)
     (mkRequest href "POST" (CreateData (payload name idxType provider))
                (IndexResult indexResponse.zero) 201) = (reply, w) →
  reply_err reply = None →
  reply_stored reply = IndexResult res →
  ∃ idx, (createIndex d href name idxType provider st).1 = Returned (idx, None)
         ∧ CaseSensitive idx = CaseSensitive (populate index_zero res).
Proof.
  intros Hdo Herr Hstored. unfold createIndex. net_unfold. rewrite Hdo. simpl.
  rewrite Herr, Hstored. simpl. eexists. split; reflexivity.
Qed.

(** ** Creation *)

Lemma createIndex_sends d href name idxType provider st :
  sent (createIndex d href name idxType provider st).2
  = sent st ++ [mkRequest href "POST" (CreateData (payload name idxType provider))
                          (IndexResult indexResponse.zero) 201].
Proof.
  unfold createIndex. net_unfold. destruct (Do _ _) as [reply w].
  destruct (reply_err reply); reflexivity.
Qed.

(** The encoded payload: the name, and a config object that holds the type
    and the provider that are not blank. *)
Lemma marshal_payload name idxType provider :
  marshal_p (payload name idxType provider)
  = JObject [("name", JString name);
             ("config", JObject (omitempty_string "type" idxType ++
                                 omitempty_string "provider" provider))].
Proof.
  unfold payload, marshal_p, marshal_c. case_decide as Hgiven; [reflexivity|].
  simpl. destruct (decide (idxType = "")) as [->|Ht].
  - destruct (decide (provider = "")) as [->|Hp]; [reflexivity|].
    exfalso. apply Hgiven. by right.
  - exfalso. apply Hgiven. by left.
Qed.

(** C4, on the code: the body of a creation request always holds the name,
    and it always holds a config object too.  With a blank type and a blank
    provider the body is [{"name": name, "config": {}}]: the empty config
    object is sent. *)
Theorem createIndex_blank_config_is_sent d href name st :
  ∃ rr, sent (createIndex d href name "" "" st).2 = sent st ++ [rr]
        ∧ body rr = Some (JObject [("name", JString name); ("config", JObject [])])
        ∧ (body rr ≫= member "name") = Some (JString name)
        ∧ (body rr ≫= member "config") = Some (JObject []).
Proof.
  eexists. split; [apply createIndex_sends|].
  unfold body. simpl. rewrite marshal_payload. repeat split.
Qed.

End Facts.

(** * The operations on concrete calls *)

Section Checks.
Import Fixture.

Lemma wrappers_return_nil_with_error_witness :
  CreateNodeIndex test_db "people" "exact" "lucene" unreachable
    = (Returned (None, Some (ForeignError "connection refused")),
       mkNetState (world unreachable)
         [mkRequest "http://host/db/data/index/node" "POST"
                    (CreateData (p.mk "people" (c.mk "exact" "lucene")))
                    (IndexResult indexResponse.zero) 201])
  ∧ db_NodeIndex test_db "people" unreachable
    = (Returned (None, Some (ForeignError "connection refused")),
       mkNetState (world unreachable)
         [mkRequest "http://host/db/data/index/node/people" "GET" NoData NoResult 0])
  ∧ NodeIndexes test_db unreachable
    = (Returned (None, Some (ForeignError "connection refused")),
       mkNetState (world unreachable)
         [mkRequest "http://host/db/data/index/node" "GET" NoData
                    (IndexMapResult ∅) 0]).
Proof.
  destruct (wrappers_return_nil_with_error test_db "people" "exact" "lucene"
              unreachable (ForeignError "connection refused"))
    as (Hcreate & Hget & Hlist & _).
  split; [|split].
  - eapply Hcreate. vm_compute. reflexivity.
  - eapply Hget. vm_compute. reflexivity.
  - eapply Hlist. vm_compute. reflexivity.
Defined.

Lemma NodeIndex_status_classification_witness :
  (∃ ni, (db_NodeIndex test_db "people" created).1 = Returned (Some ni, None))
  ∧ (db_NodeIndex test_db "people" fresh).1 = Returned (None, Some NotFound)
  ∧ (db_NodeIndex test_db "people" unreachable).1
    = Returned (None, Some (ForeignError "connection refused")).
Proof.
  split; [|split].
  - eapply (NodeIndex_status_classification test_db "people" created);
      vm_compute; reflexivity.
  - eapply (NodeIndex_status_classification test_db "people" fresh);
      vm_compute; reflexivity.
  - eapply (NodeIndex_status_classification test_db "people" unreachable);
      vm_compute; reflexivity.
Defined.

Lemma uri_panics_on_malformed_self_witness :
  join [HrefIndex fetched; Name fetched] = "people"
  ∧ uri fetched created = (Panicked, created)
  ∧ Delete fetched created = (Panicked, created)
  ∧ Add fetched node42 "color" "red" created = (Panicked, created)
  ∧ Remove fetched node42 "color" "red" created = (Panicked, created)
  ∧ Find fetched "color" "red" created = (Panicked, created)
  ∧ Query fetched "color:red" created = (Panicked, created).
Proof.
  split; [reflexivity|].
  apply (uri_panics_on_malformed_self fetched
           (ForeignError "invalid URI for request")).
  reflexivity.
Defined.

Lemma Remove_path_three_way_witness :
  sent (Remove people node42 "color" "red" fresh).2
    = [mkRequest "http://host/db/data/index/node/people/color/red/42"
                 "DELETE" NoData NoResult 0]
  ∧ sent (Remove people node42 "color" "" fresh).2
    = [mkRequest "http://host/db/data/index/node/people/color/42"
                 "DELETE" NoData NoResult 0]
  ∧ sent (Remove people node42 "" "" fresh).2
    = [mkRequest "http://host/db/data/index/node/people/42"
                 "DELETE" NoData NoResult 0].
Proof.
  split; [|split].
  - destruct (Remove_path_three_way people node42 "color" "red" fresh
                people_url test_db)
      as (path & Hsent & Hpath & _ & _);
      [reflexivity | discriminate | reflexivity |].
    rewrite Hsent, Hpath by discriminate. reflexivity.
  - destruct (Remove_path_three_way people node42 "color" "" fresh
                people_url test_db)
      as (path & Hsent & _ & Hpath & _);
      [reflexivity | discriminate | reflexivity |].
    rewrite Hsent, Hpath by (discriminate || reflexivity). reflexivity.
  - destruct (Remove_path_three_way people node42 "" "" fresh
                people_url test_db)
      as (path & Hsent & _ & _ & Hpath);
      [reflexivity | discriminate | reflexivity |].
    rewrite Hsent, Hpath by reflexivity. reflexivity.
Defined.

(** C2 fails on the code: with an empty key and the value "v", [Remove]
    returns no error and the DELETE for self/id has gone out. *)
Lemma Remove_empty_key_not_rejected :
  Remove people node42 "" "v" fresh
    = (Returned None,
       mkNetState (world fresh)
         [mkRequest "http://host/db/data/index/node/people/42"
                    "DELETE" NoData NoResult 0])
  ∧ ¬ rejected_locally (Remove people node42 "" "v") fresh.
Proof.
  split; [reflexivity|].
  intros [e [Hreturned _]]. vm_compute in Hreturned. discriminate.
Qed.

Lemma Remove_empty_key_ignores_value_witness :
  sent (Remove people node42 "" "v" fresh).2
    = [mkRequest "http://host/db/data/index/node/people/42"
                 "DELETE" NoData NoResult 0]
  ∧ Remove people node42 "" "v" fresh = Remove people node42 "" "" fresh.
Proof.
  apply (Remove_empty_key_ignores_value people node42 "v" fresh
           people_url test_db); reflexivity.
Defined.

Lemma Find_map_keyed_by_unique_id_witness :
  ∃ nm : NodeMap,
    (Find people "color" "red" red_twice).1 = Returned (nm, None)
    ∧ (∀ i n, nm !! i = Some n → Node_Id n = i ∧ n ∈ [node42; node7; node42])
    ∧ (∀ n, n ∈ [node42; node7; node42] → is_Some (nm !! Node_Id n))
    ∧ size nm = 2%nat.
Proof.
  apply (Find_map_keyed_by_unique_id people "color" "red" red_twice
           people_url red_url test_db
           (mkReply 200 None (NodesResult red_array))
           (world red_twice) red_array); reflexivity.
Defined.

(** C5 on the code: a server that lower-cases reports to_lower_case "true"
    for the index "people".  [CreateNodeIndex] decodes that response and
    returns [CaseSensitive] false, as it returns true for a response with
    to_lower_case "false"; but [NodeIndex], which asks with no [Result] to
    decode into, hands [populate] the untouched zero response and returns
    [CaseSensitive] true for the same index, whose flag is "true". *)
Theorem get_reports_folding_index_case_sensitive :
  (CreateNodeIndex test_db "people" "fulltext" "lucene" folding).1
    = Returned (Some (mkNodeIndex folding_people), None)
  ∧ CaseSensitive folding_people = false
  ∧ (CreateNodeIndex test_db "people" "exact" "lucene" fresh).1
    = Returned (Some (mkNodeIndex people), None)
  ∧ CaseSensitive people = true
  ∧ lookup_url "http://host/db/data/index/node/people"
               (served_indexes (world folded))
    = Some (indexResponse.mk
              "http://host/db/data/index/node/people/{key}/{value}"
              "lucene" "fulltext" "true")
  ∧ (db_NodeIndex test_db "people" folded).1
    = Returned (Some (mkNodeIndex fetched), None)
  ∧ CaseSensitive fetched = true.
Proof. repeat split. Qed.

(** C1 on the code: the server keeps "lucene" and "exact" for the index
    "people" and [CreateNodeIndex] returns them, but [NodeIndex] asks with no
    [Result] to decode into and returns a descriptor whose provider and type
    are blank. *)
Theorem create_then_get_loses_provider_and_type :
  (CreateNodeIndex test_db "people" "exact" "lucene" fresh).1
    = Returned (Some (mkNodeIndex people), None)
  ∧ lookup_url "http://host/db/data/index/node/people"
               (served_indexes (world created))
    = Some (indexResponse.mk
              "http://host/db/data/index/node/people/{key}/{value}"
              "lucene" "exact" "false")
  ∧ (db_NodeIndex test_db "people" created).1
    = Returned (Some (mkNodeIndex fetched), None)
  ∧ Name fetched = "people"
  ∧ Provider fetched = ""
  ∧ IndexType fetched = "".
Proof. repeat split. Qed.

(** C3 on the code: the descriptor [NodeIndex] returns on its success path
    has neither [HrefIndex] nor [db] set.  Its self URI is composed from the
    name alone and does not parse, so [Delete], [Add], [Remove], [Find] and
    [Query] panic on it, while the descriptor [CreateNodeIndex] returned is
    accepted. *)
Theorem get_returns_unresolved_descriptor :
  (db_NodeIndex test_db "people" created).1
    = Returned (Some (mkNodeIndex fetched), None)
  ∧ HrefIndex fetched = ""
  ∧ db fetched = None
  ∧ join [HrefIndex fetched; Name fetched] = "people"
  ∧ (Delete fetched created).1 = Panicked
  ∧ (Add fetched node42 "color" "red" created).1 = Panicked
  ∧ (Remove fetched node42 "color" "red" created).1 = Panicked
  ∧ (Find fetched "color" "red" created).1 = Panicked
  ∧ (Query fetched "color:red" created).1 = Panicked
  ∧ HrefIndex people = HrefNodeIndex test_db
  ∧ join [HrefIndex people; Name people] = "http://host/db/data/index/node/people"
  ∧ (Add people node42 "color" "red" created).1 = Returned None
  ∧ (Remove people node42 "color" "red" created).1 = Returned None.
Proof. repeat split. Qed.

End Checks.

(** * Further properties of the operations *)

Section MoreFacts.
Context `{Entities} `{NetUrl} `{!Transport}.

(** ** Deleting an index and adding an entry *)

Lemma Delete_resolved idx st u d :
  ParseRequestURI (join [HrefIndex idx; Name idx]) = (Some u, None) →
  db idx = Some d →
  let req := mkRequest (URL_String u) "DELETE" NoData NoResult 0 in
  Delete idx st =
  (Returned
     match reply_err (Do (world st) req).1 with
     | Some e => Some e
     | None => if decide (reply_status (Do (world st) req).1 = 204)
               then None else Some BadResponse
     end,
   mkNetState (Do (world st) req).2 (sent st ++ [req])).
Proof.
  intros Hparse Hdb req. unfold Delete. net_unfold.
  rewrite (uri_resolved _ _ _ Hparse), Hdb. fold req.
  destruct (Do (world st) req) as [reply w]. simpl.
  destruct (reply_err reply); [reflexivity|]. case_decide; reflexivity.
Qed.

Lemma Add_resolved idx n key value st u d :
  ParseRequestURI (join [HrefIndex idx; Name idx]) = (Some u, None) →
  db idx = Some d →
  let req := mkRequest (URL_String u) "POST"
                       (AddData (s.mk (Node_HrefSelf n) key value)) NoResult 0 in
  Add idx n key value st =
  (Returned
     match reply_err (Do (world st) req).1 with
     | Some e => Some e
     | None => if decide (reply_status (Do (world st) req).1 = 201)
               then None else Some BadResponse
     end,
   mkNetState (Do (world st) req).2 (sent st ++ [req])).
Proof.
  intros Hparse Hdb req. unfold Add. net_unfold.
  rewrite (uri_resolved _ _ _ Hparse), Hdb. fold req.
  destruct (Do (world st) req) as [reply w]. simpl.
  destruct (reply_err reply); [reflexivity|]. case_decide; reflexivity.
Qed.

(** X1: [Delete] on a resolved index issues exactly one request, a DELETE of
    the self URI with no body.  Status 204 gives nil, every other status
    (404 among them) gives [BadResponse], and an error of the transport is
    returned as it is. *)
Theorem Delete_outcome idx st u d reply w :
  ParseRequestURI (join [HrefIndex idx; Name idx]) = (Some u, None) →
  db idx = Some d →
  Do (world st) (mkRequest (URL_String u) "DELETE" NoData NoResult 0)
    = (reply, w) →
  (Delete idx st).2
    = mkNetState w (sent st ++ [mkRequest (URL_String u) "DELETE" NoData NoResult 0])
  ∧ body (mkRequest (URL_String u) "DELETE" NoData NoResult 0) = None
  ∧ (∀ e, reply_err reply = Some e → (Delete idx st).1 = Returned (Some e))
  ∧ (reply_err reply = None → reply_status reply = 204 →
     (Delete idx st).1 = Returned None)
  ∧ (reply_err reply = None → reply_status reply ≠ 204 →
     (Delete idx st).1 = Returned (Some BadResponse)).
Proof.
  intros Hparse Hdb Hdo.
  rewrite (Delete_resolved _ _ _ _ Hparse Hdb), Hdo. simpl.
  repeat split.
  - intros e ->. reflexivity.
  - intros -> ->. reflexivity.
  - intros -> Hstatus. by rewrite decide_False.
Qed.

(** X2: [Add] on a resolved index issues exactly one request, a POST to the
    self URI whose body holds the node's self link under "uri" and the key
    and the value as given, blank or not.  Status 201 gives nil, every other
    status gives [BadResponse], and an error of the transport is returned as
    it is. *)
Theorem Add_outcome idx n key value st u d reply w :
  ParseRequestURI (join [HrefIndex idx; Name idx]) = (Some u, None) →
  db idx = Some d →
  Do (world st)
     (mkRequest (URL_String u) "POST"
                (AddData (s.mk (Node_HrefSelf n) key value)) NoResult 0)
    = (reply, w) →
  ∃ rr,
    (Add idx n key value st).2 = mkNetState w (sent st ++ [rr])
    ∧ Url rr = URL_String u
    ∧ Method rr = "POST"
    ∧ body rr = Some (JObject [("uri", JString (Node_HrefSelf n));
                               ("key", JString key);
                               ("value", JString value)])
    ∧ (∀ e, reply_err reply = Some e →
            (Add idx n key value st).1 = Returned (Some e))
    ∧ (reply_err reply = None → reply_status reply = 201 →
       (Add idx n key value st).1 = Returned None)
    ∧ (reply_err reply = None → reply_status reply ≠ 201 →
       (Add idx n key value st).1 = Returned (Some BadResponse)).
Proof.
  intros Hparse Hdb Hdo. eexists.
  rewrite (Add_resolved _ _ _ _ _ _ _ Hparse Hdb), Hdo. simpl.
  repeat split.
  - intros e ->. reflexivity.
  - intros -> ->. reflexivity.
  - intros -> Hstatus. by rewrite decide_False.
Qed.

(** X3: [Remove] on a resolved index issues exactly one request, a DELETE
    with no body.  Status 204 gives nil, every other status gives
    [BadResponse], and an error of the transport is returned as it is. *)
Theorem Remove_outcome idx n key value st u d reply w :
  ParseRequestURI (join [HrefIndex idx; Name idx]) = (Some u, None) →
  db idx = Some d →
  Do (world st)
     (mkRequest
        (join [if decide (key ≠ "") then join [URL_String u; key; value]
               else URL_String u;
               Itoa (Node_Id n)])
        "DELETE" NoData NoResult 0)
    = (reply, w) →
  ∃ rr,
    (Remove idx n key value st).2 = mkNetState w (sent st ++ [rr])
    ∧ Method rr = "DELETE"
    ∧ body rr = None
    ∧ (∀ e, reply_err reply = Some e →
            (Remove idx n key value st).1 = Returned (Some e))
    ∧ (reply_err reply = None → reply_status reply = 204 →
       (Remove idx n key value st).1 = Returned None)
    ∧ (reply_err reply = None → reply_status reply ≠ 204 →
       (Remove idx n key value st).1 = Returned (Some BadResponse)).
Proof.
  intros Hparse Hdb Hdo. eexists.
  rewrite (Remove_resolved _ _ _ _ _ _ _ Hparse Hdb), Hdo. simpl.
  repeat split.
  - intros e ->. reflexivity.
  - intros -> ->. reflexivity.
  - intros -> Hstatus. by rewrite decide_False.
Qed.

(** ** The lookups *)

(** X4: when the call of [Find] fails, or is answered with a status other
    than 200, [Find] returns the error of the transport, respectively
    [BadResponse], together with an empty map; a 404 is a [BadResponse] like
    any other status. *)
Theorem Find_failure_gives_empty_map idx key value st u0 u d reply w :
  ParseRequestURI (join [HrefIndex idx; Name idx]) = (Some u0, None) →
  ParseRequestURI (join [URL_String u0; key; value]) = (Some u, None) →
  db idx = Some d →
  Do (world st) (mkRequest (URL_String u) "GET" NoData (NodesResult []) 0)
    = (reply, w) →
  (∀ e, reply_err reply = Some e →
        (Find idx key value st).1 = Returned (∅, Some e))
  ∧ (reply_err reply = None → reply_status reply ≠ 200 →
     (Find idx key value st).1 = Returned (∅, Some BadResponse))
  ∧ (reply_err reply = None → reply_status reply = 404 →
     (Find idx key value st).1 = Returned (∅, Some BadResponse)).
Proof.
  intros Hself Hparse Hdb Hdo.
  rewrite (Find_resolved _ _ _ _ _ _ _ Hself Hparse Hdb), Hdo. simpl.
  repeat split.
  - intros e ->. reflexivity.
  - intros -> Hstatus. by rewrite decide_True.
  - intros -> ->. reflexivity.
Qed.

(** X5: [Find] has no guard like the one in [Remove]: with an empty key the
    value takes the place of the key in the path, so [Find] with ("", v)
    does exactly what [Find] with (v, "") does. *)
Theorem Find_empty_key_takes_value_as_key idx value st :
  Find idx "" value st = Find idx value "" st.
Proof.
  unfold Find. net_unfold.
  destruct (uri idx st) as [[[rawurl [e|]]|] st']; reflexivity.
Qed.

(** X6: when the self URI parses but the lookup path built from it does
    not, [Find] returns the parse error with an empty map: it does not
    panic, issues no request and leaves the state as it was. *)
Theorem Find_unparsable_lookup idx key value st u0 e :
  ParseRequestURI (join [HrefIndex idx; Name idx]) = (Some u0, None) →
  (ParseRequestURI (join [URL_String u0; key; value])).2 = Some e →
  Find idx key value st = (Returned (∅, Some e), st).
Proof.
  intros Hself Herr. unfold Find. net_unfold.
  rewrite (uri_resolved _ _ _ Hself).
  destruct (ParseRequestURI (join [URL_String u0; key; value])) as [u err].
  simpl in Herr. subst err. reflexivity.
Qed.

Lemma Query_resolved idx query st u0 u d :
  ParseRequestURI (join [HrefIndex idx; Name idx]) = (Some u0, None) →
  ParseRequestURI (URL_String u0 +:+ "?" +:+ Values_Encode_query query)
    = (Some u, None) →
  db idx = Some d →
  let req := mkRequest (URL_String u) "GET" NoData (NodesResult []) 0 in
  Query idx query st =
  (Returned
     match reply_err (Do (world st) req).1 with
     | Some e => (∅, Some e)
     | None =>
         if decide (reply_status (Do (world st) req).1 ≠ 200)
         then (∅, Some BadResponse)
         else (collect (db idx) ∅
                 (read_nodes [] (reply_stored (Do (world st) req).1)), None)
     end,
   mkNetState (Do (world st) req).2 (sent st ++ [req])).
Proof.
  intros Hself Hparse Hdb req. unfold Query. net_unfold.
  rewrite (uri_resolved _ _ _ Hself), Hparse, Hdb. fold req.
  destruct (Do (world st) req) as [reply w]. simpl.
  destruct (reply_err reply); [reflexivity|]. case_decide; reflexivity.
Qed.

(** X7: [Query] on a resolved index issues exactly one request, a GET of the
    self URI followed by "?" and the encoded query parameter.  Answered with
    200 and an array, it returns the map [Find] would build from that array:
    each entry is a listed node under its own identifier, and there is one
    entry per distinct identifier. *)
Theorem Query_success idx query st u0 u d reply w resp :
  ParseRequestURI (join [HrefIndex idx; Name idx]) = (Some u0, None) →
  ParseRequestURI (URL_String u0 +:+ "?" +:+ Values_Encode_query query)
    = (Some u, None) →
  db idx = Some d →
  Do (world st) (mkRequest (URL_String u) "GET" NoData (NodesResult []) 0)
    = (reply, w) →
  reply_err reply = None →
  reply_status reply = 200 →
  reply_stored reply = NodesResult resp →
  ∃ nm : NodeMap,
    Query idx query st
      = (Returned (nm, None),
         mkNetState w (sent st ++ [mkRequest (URL_String u) "GET" NoData
                                             (NodesResult []) 0]))
    ∧ nm = collect (db idx) ∅ resp
    ∧ (∀ i n, nm !! i = Some n →
              Node_Id n = i ∧ n ∈ Node_populate (db idx) <$> resp)
    ∧ (∀ n, n ∈ Node_populate (db idx) <$> resp → is_Some (nm !! Node_Id n))
    ∧ size nm
      = length (remove_dups (Node_Id <$> (Node_populate (db idx) <$> resp))).
Proof.
  intros Hself Hparse Hdb Hdo Herr Hstatus Hstored.
  exists (collect (db idx) ∅ resp). split; [|split; [|split; [|split]]].
  - rewrite (Query_resolved _ _ _ _ _ _ Hself Hparse Hdb), Hdo. simpl.
    rewrite Herr, Hstatus, Hstored. reflexivity.
  - reflexivity.
  - apply collect_lookup.
  - intros n Hn. apply elem_of_dom. rewrite collect_dom.
    apply elem_of_list_to_set. by apply list_elem_of_fmap_2.
  - apply collect_size.
Qed.

(** X8: when [Query] is answered with a status other than 200, or the call
    fails, it returns [BadResponse], respectively the error of the
    transport, together with an empty map. *)
Theorem Query_failure_gives_empty_map idx query st u0 u d reply w :
  ParseRequestURI (join [HrefIndex idx; Name idx]) = (Some u0, None) →
  ParseRequestURI (URL_String u0 +:+ "?" +:+ Values_Encode_query query)
    = (Some u, None) →
  db idx = Some d →
  Do (world st) (mkRequest (URL_String u) "GET" NoData (NodesResult []) 0)
    = (reply, w) →
  (∀ e, reply_err reply = Some e →
        (Query idx query st).1 = Returned (∅, Some e))
  ∧ (reply_err reply = None → reply_status reply ≠ 200 →
     (Query idx query st).1 = Returned (∅, Some BadResponse)).
Proof.
  intros Hself Hparse Hdb Hdo.
  rewrite (Query_resolved _ _ _ _ _ _ Hself Hparse Hdb), Hdo. simpl.
  split.
  - intros e ->. reflexivity.
  - intros -> Hstatus. by rewrite decide_True.
Qed.

Lemma collect_app d (nm : NodeMap) l1 l2 :
  collect d nm (l1 ++ l2) = collect d (collect d nm l1) l2.
Proof. unfold collect. apply foldl_app. Qed.

(** Entries under other identifiers pass through the loop untouched. *)
Lemma collect_lookup_other d (nm : NodeMap) resp i :
  (∀ r, r ∈ resp → Node_Id (Node_populate d r) ≠ i) →
  collect d nm resp !! i = nm !! i.
Proof.
  revert nm. induction resp as [|r resp IH]; intros nm Hother; [reflexivity|].
  change (collect d nm (r :: resp))
    with (collect d (<[Node_Id (Node_populate d r) := Node_populate d r]> nm) resp).
  rewrite IH by (intros r' Hr'; apply Hother; by right).
  apply lookup_insert_ne. apply Hother. by left.
Qed.

(** X9: the loop that fills the map overwrites: of the representations
    that share an identifier, the one that comes last in the array is the
    one the map holds. *)
Theorem collect_last_wins d before r after :
  (∀ r', r' ∈ after →
         Node_Id (Node_populate d r') ≠ Node_Id (Node_populate d r)) →
  collect d (∅ : NodeMap) (before ++ r :: after)
    !! Node_Id (Node_populate d r)
  = Some (Node_populate d r).
Proof.
  intros Hlast. rewrite collect_app.
  change (collect d (collect d ∅ before) (r :: after))
    with (collect d (<[Node_Id (Node_populate d r) := Node_populate d r]>
                       (collect d ∅ before)) after).
  rewrite collect_lookup_other by done. apply lookup_insert_eq.
Qed.

(** ** Listing the indexes *)

(** The descriptor [indexes] makes of one entry of the decoded map. *)
Lemma foldl_snoc_fmap {A B} (g : list B → A → list B) (f : A → B) :
  (∀ acc a, g acc a = acc ++ [f a]) →
  ∀ acc l, foldl g acc l = acc ++ (f <$> l).
Proof.
  intros Hg acc l. revert acc. induction l as [|a l IH]; intros acc; simpl.
  - by rewrite app_nil_r.
  - rewrite IH, Hg, <- app_assoc. reflexivity.
Qed.

Lemma indexes_after_call d href st reply w :
  Do (world st) (mkRequest href "GET" NoData (IndexMapResult ∅) 0) = (reply, w) →
  indexes d href st =
  (Returned
     match reply_err reply with
     | Some e => ([], Some e)
     | None =>
         if decide (reply_status reply ≠ 200) then ([], Some BadResponse)
         else ((λ entry, populate (set_Name (set_db index_zero d) entry.1) entry.2)
                 <$> map_to_list (read_indexMap ∅ (reply_stored reply)), None)
     end,
   mkNetState w (sent st ++ [mkRequest href "GET" NoData (IndexMapResult ∅) 0])).
Proof.
  intros Hdo. unfold indexes. net_unfold. rewrite Hdo.
  destruct (reply_err reply); [reflexivity|]. case_decide; [reflexivity|].
  do 3 f_equal.
  apply (foldl_snoc_fmap _
           (λ entry, populate (set_Name (set_db index_zero d) entry.1) entry.2)).
  intros acc [name r]. reflexivity.
Qed.

(** X10: answered with 200 and a map from names to descriptors,
    [NodeIndexes] returns one index per name of the map and nothing else:
    each takes its name from its key and the other fields from the value
    under that key, no name comes twice, each holds the database handle, and
    none has its [HrefIndex] set. *)
Theorem NodeIndexes_one_per_name d st reply w m :
  Do (world st)
     (mkRequest (HrefNodeIndex d) "GET" NoData (IndexMapResult ∅) 0)
    = (reply, w) →
  reply_err reply = None →
  reply_status reply = 200 →
  reply_stored reply = IndexMapResult m →
  ∃ nis,
    (NodeIndexes d st).1 = Returned (Some nis, None)
    ∧ length nis = size m
    ∧ NoDup (Name ∘ NodeIndex_index <$> nis)
    ∧ (∀ ni, ni ∈ nis ↔
             ∃ name r, m !! name = Some r
                       ∧ ni = mkNodeIndex
                                (populate (set_Name (set_db index_zero d) name) r))
    ∧ (∀ ni, ni ∈ nis →
             db (NodeIndex_index ni) = Some d
             ∧ HrefIndex (NodeIndex_index ni) = "").
Proof.
  intros Hdo Herr Hstatus Hstored.
  set (mk := λ entry : string * indexResponse.t,
         mkNodeIndex (populate (set_Name (set_db index_zero d) entry.1) entry.2)).
  assert (Hrun : (NodeIndexes d st).1
                 = Returned (Some (mk <$> map_to_list m), None)).
  { rewrite NodeIndexes_unfold, (indexes_after_call _ _ _ _ _ Hdo).
    rewrite Herr, Hstatus, Hstored. simpl.
    rewrite <- list_fmap_compose. reflexivity. }
  assert (Hmem : ∀ ni, ni ∈ mk <$> map_to_list m ↔
                       ∃ name r, m !! name = Some r ∧ ni = mk (name, r)).
  { intros ni. rewrite list_elem_of_fmap. split.
    - intros [[name r] [-> Hin]]. exists name, r.
      split; [by apply elem_of_map_to_list | reflexivity].
    - intros (name & r & Hm & ->). exists (name, r).
      split; [reflexivity | by apply elem_of_map_to_list]. }
  exists (mk <$> map_to_list m). split; [exact Hrun|]. split; [|split; [|split]].
  - by rewrite length_fmap, length_map_to_list.
  - rewrite <- list_fmap_compose.
    assert (Hnames : (Name ∘ NodeIndex_index) ∘ mk = fst) by reflexivity.
    rewrite Hnames. apply NoDup_fst_map_to_list.
  - exact Hmem.
  - intros ni Hni. apply Hmem in Hni as (name & r & _ & ->). split; reflexivity.
Qed.

(** X11: when the listing is answered with a status other than 200 (a 404
    among them), [NodeIndexes] returns a nil slice with [BadResponse]; when
    the call fails it returns a nil slice with the error of the transport.
    Either way one GET of the collection has gone out. *)
Theorem NodeIndexes_failure d st reply w :
  Do (world st)
     (mkRequest (HrefNodeIndex d) "GET" NoData (IndexMapResult ∅) 0)
    = (reply, w) →
  (∀ e, reply_err reply = Some e →
        NodeIndexes d st
        = (Returned (None, Some e),
           mkNetState w (sent st ++ [mkRequest (HrefNodeIndex d) "GET" NoData
                                               (IndexMapResult ∅) 0])))
  ∧ (reply_err reply = None → reply_status reply ≠ 200 →
        NodeIndexes d st
        = (Returned (None, Some BadResponse),
           mkNetState w (sent st ++ [mkRequest (HrefNodeIndex d) "GET" NoData
                                               (IndexMapResult ∅) 0]))).
Proof.
  intros Hdo. rewrite NodeIndexes_unfold, (indexes_after_call _ _ _ _ _ Hdo).
  split.
  - intros e ->. reflexivity.
  - intros -> Hstatus. by rewrite decide_True.
Qed.

(** ** Retrieval by name, continued *)

(** X12: when the collection URI joined with the name does not parse,
    [NodeIndex] returns nil with the parse error: it does not panic, issues
    no request and leaves the state as it was. *)
Theorem NodeIndex_unparsable_name d name st e :
  (ParseRequestURI (join [HrefNodeIndex d; name])).2 = Some e →
  db_NodeIndex d name st = (Returned (None, Some e), st).
Proof.
  intros Herr. unfold db_NodeIndex, db_index. net_unfold.
  destruct (ParseRequestURI (join [HrefNodeIndex d; name])) as [u err].
  simpl in Herr. subst err. reflexivity.
Qed.

(** X13: whatever the transport and whatever the server answers, an index
    that [NodeIndex] returns carries the name that was asked for and nothing
    else: template, provider and type are blank, [CaseSensitive] is true,
    [HrefIndex] is blank and the database handle is nil. *)
Theorem NodeIndex_descriptor_is_bare d name st ni st' :
  db_NodeIndex d name st = (Returned (Some ni, None), st') →
  NodeIndex_index ni = mkIndex None name "" "" "" true "".
Proof.
  rewrite db_NodeIndex_unfold.
  destruct (db_index d (HrefNodeIndex d) name st) as [[[idx [e|]]|] st1] eqn:Hrun;
    intros [= <- <-].
  simpl. rewrite (db_index_descriptor _ _ _ _ _ _ _ Hrun). f_equal.
  revert Hrun. unfold db_index.
  destruct (ParseRequestURI _) as [[u|] [e|]]; net_unfold; try discriminate.
  destruct (Do _ _) as [reply w]. destruct (reply_err reply); [discriminate|].
  repeat case_decide; intros [= <-]; reflexivity.
Qed.

(** [Delete], [Add] and [Remove] on an index whose database handle is nil. *)
Lemma nil_db_panics idx n key value st :
  db idx = None →
  Delete idx st = (Panicked, st)
  ∧ Add idx n key value st = (Panicked, st)
  ∧ Remove idx n key value st = (Panicked, st).
Proof.
  intros Hdb. unfold Delete, Add, Remove, uri. net_unfold. rewrite Hdb.
  pose proof (ParseRequestURI_nil (join [HrefIndex idx; Name idx])) as Hnil.
  destruct (ParseRequestURI _) as [[u|] [e|]]; repeat split; try reflexivity;
    specialize (Hnil e eq_refl); discriminate Hnil.
Qed.

(** X14: an index that [NodeIndex] has returned cannot be deleted or
    changed through: whatever the transport, [Delete], [Add] and [Remove]
    panic on it, in any state, without issuing a request. *)
Theorem fetched_index_panics d name st ni st' n key value st'' :
  db_NodeIndex d name st = (Returned (Some ni, None), st') →
  Delete (NodeIndex_index ni) st'' = (Panicked, st'')
  ∧ Add (NodeIndex_index ni) n key value st'' = (Panicked, st'')
  ∧ Remove (NodeIndex_index ni) n key value st'' = (Panicked, st'').
Proof.
  rewrite db_NodeIndex_unfold.
  destruct (db_index d (HrefNodeIndex d) name st) as [[[idx [e|]]|] st1] eqn:Hrun;
    intros [= <- <-].
  apply nil_db_panics. simpl.
  by rewrite (db_index_descriptor _ _ _ _ _ _ _ Hrun).
Qed.

(** ** Creation, continued *)

Lemma createIndex_after_call d href name idxType provider st reply w :
  Do (world st)
     (mkRequest href "POST" (CreateData (payload name idxType provider))
                (IndexResult indexResponse.zero) 201) = (reply, w) →
  createIndex d href name idxType provider st =
  (Returned
     match reply_err reply with
     | Some e => (set_Name (set_db index_zero d) name, Some e)
     | None =>
         (set_HrefIndex
            (populate (set_Name (set_db index_zero d) name)
                      (read_indexResponse indexResponse.zero (reply_stored reply)))
            href, None)
     end,
   mkNetState w
     (sent st ++ [mkRequest href "POST" (CreateData (payload name idxType provider))
                            (IndexResult indexResponse.zero) 201])).
Proof.
  intros Hdo. unfold createIndex. net_unfold. rewrite Hdo.
  destruct (reply_err reply); reflexivity.
Qed.

(** X15: [CreateNodeIndex] asks for status 201 in the request and does not
    look at the status itself: every reply without an error is a success.
    The index it then returns has the name that was asked for, the database
    handle and the collection URI as [HrefIndex]; its template, provider and
    type are those of the response, not those of the call. *)
Theorem CreateNodeIndex_success d name idxType provider st reply w res :
  Do (world st)
     (mkRequest (HrefNodeIndex d) "POST"
                (CreateData (payload name idxType provider))
                (IndexResult indexResponse.zero) 201) = (reply, w) →
  reply_err reply = None →
  reply_stored reply = IndexResult res →
  ∃ ni,
    (CreateNodeIndex d name idxType provider st).1 = Returned (Some ni, None)
    ∧ Name (NodeIndex_index ni) = name
    ∧ db (NodeIndex_index ni) = Some d
    ∧ HrefIndex (NodeIndex_index ni) = HrefNodeIndex d
    ∧ HrefTemplate (NodeIndex_index ni) = indexResponse.HrefTemplate res
    ∧ Provider (NodeIndex_index ni) = indexResponse.Provider res
    ∧ IndexType (NodeIndex_index ni) = indexResponse.IndexType res.
Proof.
  intros Hdo Herr Hstored. eexists.
  rewrite CreateNodeIndex_unfold, (createIndex_after_call _ _ _ _ _ _ _ _ Hdo).
  rewrite Herr, Hstored. simpl. repeat split.
Qed.

(** What [createIndex] leaves in an index it returns without error. *)
Lemma createIndex_resolved d href name idxType provider st idx st' :
  createIndex d href name idxType provider st = (Returned (idx, None), st') →
  Name idx = name ∧ db idx = Some d ∧ HrefIndex idx = href
  ∧ sent st' = sent st ++ [mkRequest href "POST"
                                     (CreateData (payload name idxType provider))
                                     (IndexResult indexResponse.zero) 201].
Proof.
  unfold createIndex. net_unfold. destruct (Do _ _) as [reply w].
  destruct (reply_err reply); [discriminate|].
  intros [= <- <-]. repeat split.
Qed.

(** X16: an index that [CreateNodeIndex] has returned is resolved to the
    URI that [NodeIndex] fetches for the same name: [Delete] on it issues its
    DELETE to the very URL that [NodeIndex] issues its GET to. *)
Theorem created_index_self_is_fetch_url d name idxType provider st ni st' u :
  CreateNodeIndex d name idxType provider st = (Returned (Some ni, None), st') →
  ParseRequestURI (join [HrefNodeIndex d; name]) = (Some u, None) →
  sent (Delete (NodeIndex_index ni) st').2
    = sent st' ++ [mkRequest (URL_String u) "DELETE" NoData NoResult 0]
  ∧ sent (db_NodeIndex d name st').2
    = sent st' ++ [mkRequest (URL_String u) "GET" NoData NoResult 0].
Proof.
  rewrite CreateNodeIndex_unfold.
  destruct (createIndex d (HrefNodeIndex d) name idxType provider st)
    as [[[idx [e|]]|] st1] eqn:Hrun; intros [= <- <-] Hparse.
  destruct (createIndex_resolved _ _ _ _ _ _ _ _ Hrun) as (Hname & Hdb & Hhref & _).
  simpl. split.
  - rewrite (Delete_resolved idx st1 u d); [reflexivity | | exact Hdb].
    by rewrite Hhref, Hname.
  - rewrite db_NodeIndex_unfold.
    destruct (Do (world st1) (mkRequest (URL_String u) "GET" NoData NoResult 0))
      as [reply w] eqn:Hdo.
    rewrite (db_index_after_call _ _ _ _ _ _ _ Hparse Hdo).
    destruct (reply_err reply); [reflexivity|].
    repeat case_decide; reflexivity.
Qed.

(** X17: in the body of a creation request the config object holds the key
    "type" exactly when the type is not blank, and the key "provider"
    exactly when the provider is not blank, each with the string that was
    given. *)
Theorem createIndex_config_keys d href name idxType provider st :
  ∃ rr config,
    sent (createIndex d href name idxType provider st).2 = sent st ++ [rr]
    ∧ (body rr ≫= member "config") = Some config
    ∧ member "type" config
      = (if decide (idxType = "") then None else Some (JString idxType))
    ∧ member "provider" config
      = (if decide (provider = "") then None else Some (JString provider)).
Proof.
  eexists. eexists. split; [apply createIndex_sends|].
  unfold body. cbn [marshal Data]. rewrite marshal_payload.
  split; [reflexivity|]. unfold omitempty_string.
  destruct (decide (idxType = "")), (decide (provider = "")); split; reflexivity.
Qed.

(** ** Removing entries, continued *)

Lemma join_head_nonempty (a : string) (rest : list string) :
  a ≠ "" → join (a :: rest) ≠ "".
Proof.
  intros Ha. unfold join. rewrite filter_cons_True by done.
  destruct (filter (λ f, f ≠ "") rest) as [|b l]; [done|].
  change (a +:+ "/" +:+ String.concat "/" (b :: l) ≠ "").
  by apply append_nonempty.
Qed.

(** X18: on a resolved index, [Remove] for two nodes with different
    identifiers never addresses the same URL, whatever the key and the
    value. *)
Theorem Remove_distinct_nodes_distinct_urls idx n1 n2 key value st u d :
  ParseRequestURI (join [HrefIndex idx; Name idx]) = (Some u, None) →
  URL_String u ≠ "" →
  db idx = Some d →
  Node_Id n1 ≠ Node_Id n2 →
  Url <$> sent (Remove idx n1 key value st).2
    ≠ Url <$> sent (Remove idx n2 key value st).2.
Proof.
  intros Hparse Hself Hdb Hids.
  rewrite !(Remove_resolved _ _ _ _ _ _ _ Hparse Hdb). simpl.
  rewrite !fmap_app. simpl. intros Heq. apply app_inv_head in Heq.
  injection Heq as Heq. apply Hids.
  set (prefix := if decide (key ≠ "") then join [URL_String u; key; value]
                 else URL_String u) in *.
  assert (Hprefix : prefix ≠ "").
  { unfold prefix. case_decide; [by apply join_head_nonempty | done]. }
  rewrite !join_pair in Heq by (done || apply Itoa_nonempty).
  apply (inj (String.append prefix)) in Heq.
  apply (inj (String.append "/")) in Heq.
  unfold Itoa in Heq. by apply (inj pretty) in Heq.
Qed.

(** ** Requests *)

(** X19: no operation of the file issues more than one request: whatever it
    returns, and also when it panics, it has sent one request or none. *)
Theorem operations_issue_at_most_one_request
    d href name idxType provider idx n key value query :
  at_most_one_request (createIndex d href name idxType provider)
  ∧ at_most_one_request (CreateNodeIndex d name idxType provider)
  ∧ at_most_one_request (indexes d href)
  ∧ at_most_one_request (NodeIndexes d)
  ∧ at_most_one_request (db_index d href name)
  ∧ at_most_one_request (db_NodeIndex d name)
  ∧ at_most_one_request (Delete idx)
  ∧ at_most_one_request (Add idx n key value)
  ∧ at_most_one_request (Remove idx n key value)
  ∧ at_most_one_request (Find idx key value)
  ∧ at_most_one_request (Query idx query).
Proof.
  unfold at_most_one_request.
  unfold CreateNodeIndex, NodeIndexes, db_NodeIndex, createIndex, indexes,
    db_index, Delete, Add, Remove, Find, Query, uri.
  net_unfold.
  repeat split; intros st;
    repeat (simpl; first
      [ match goal with
        | |- context [ParseRequestURI ?x] => destruct (ParseRequestURI x) as [[?|] [?|]]
        | |- context [Do ?w ?rr] => destruct (Do w rr) as [? ?]
        | |- context [db ?i] => destruct (db i)
        | |- context [reply_err ?r] => destruct (reply_err r)
        end
      | case_decide ]);
    simpl; (by left) || (right; by eexists).
Qed.

End MoreFacts.

(** * The further properties on concrete calls *)

Section MoreChecks.
Import Fixture.
Import Script.

Lemma Delete_outcome_witness :
  (Delete people fresh).2
    = mkNetState (world fresh)
        [mkRequest "http://host/db/data/index/node/people" "DELETE"
                   NoData NoResult 0]
  ∧ (Delete people fresh).1 = Returned None.
Proof.
  destruct (Delete_outcome people fresh people_url test_db
              (mkReply 204 None NoResult) (world fresh))
    as (Hstate & _ & _ & Hdone & _); [reflexivity..|].
  split; [exact Hstate | apply Hdone; reflexivity].
Defined.

Lemma Add_outcome_witness :
  ∃ rr,
    (Add people node42 "color" "red" fresh).2 = mkNetState (world fresh) [rr]
    ∧ body rr = Some (JObject [("uri", JString "http://host/db/data/node/42");
                               ("key", JString "color");
                               ("value", JString "red")])
    ∧ (Add people node42 "color" "red" fresh).1 = Returned None.
Proof.
  destruct (Add_outcome people node42 "color" "red" fresh people_url test_db
              (mkReply 201 None NoResult) (world fresh))
    as (rr & Hstate & _ & _ & Hbody & _ & Hdone & _); [reflexivity..|].
  exists rr. split; [exact Hstate|]. split; [exact Hbody|].
  apply Hdone; reflexivity.
Defined.

Lemma Remove_outcome_witness :
  ∃ rr,
    (Remove people node42 "color" "red" fresh).2 = mkNetState (world fresh) [rr]
    ∧ Method rr = "DELETE"
    ∧ body rr = None
    ∧ (Remove people node42 "color" "red" fresh).1 = Returned None.
Proof.
  destruct (Remove_outcome people node42 "color" "red" fresh people_url test_db
              (mkReply 204 None NoResult) (world fresh))
    as (rr & Hstate & Hmethod & Hbody & _ & Hdone & _); [reflexivity..|].
  exists rr. split; [exact Hstate|]. split; [exact Hmethod|].
  split; [exact Hbody|]. apply Hdone; reflexivity.
Defined.

Lemma Find_failure_gives_empty_map_witness :
  (Find people "color" "red" fresh).1 = Returned (∅, Some BadResponse)
  ∧ (Find people "color" "red" unreachable).1
    = Returned (∅, Some (ForeignError "connection refused")).
Proof.
  split.
  - destruct (Find_failure_gives_empty_map people "color" "red" fresh
                people_url red_url test_db
                (mkReply 404 None (NodesResult [])) (world fresh))
      as (_ & _ & Hmissing); [reflexivity..|].
    apply Hmissing; reflexivity.
  - destruct (Find_failure_gives_empty_map people "color" "red" unreachable
                people_url red_url test_db
                (mkReply 0 (Some (ForeignError "connection refused"))
                         (NodesResult []))
                (world unreachable))
      as (Hfailed & _); [reflexivity..|].
    apply Hfailed; reflexivity.
Defined.

Lemma Find_unparsable_lookup_witness :
  @Find test_entities escape_url test_transport people "%zz" "red" fresh
  = (Returned (∅, Some (ForeignError "invalid URL escape")), fresh).
Proof.
  apply (@Find_unparsable_lookup test_entities escape_url test_transport
           people "%zz" "red" fresh people_url); reflexivity.
Defined.

Lemma Query_success_witness :
  ∃ nm : NodeMap,
    (@Query test_entities test_url script_transport people "color:red"
            (answering (mkReply 200 None (NodesResult moved_array)))).1
      = Returned (nm, None)
    ∧ nm !! 42 = Some node42_moved
    ∧ nm !! 7 = Some node7
    ∧ size nm = 2%nat.
Proof.
  destruct (@Query_success test_entities test_url script_transport
              people "color:red"
              (answering (mkReply 200 None (NodesResult moved_array)))
              people_url query_url test_db
              (mkReply 200 None (NodesResult moved_array)) [] moved_array)
    as (nm & Hrun & Hnm & _ & _ & Hsize); [reflexivity..|].
  subst nm. eexists. split; [by rewrite Hrun|].
  split; [reflexivity|]. split; [reflexivity | exact Hsize].
Defined.

Lemma Query_failure_gives_empty_map_witness :
  (@Query test_entities test_url script_transport people "color:red"
          (answering (mkReply 500 None NoResult))).1
    = Returned (∅, Some BadResponse).
Proof.
  destruct (@Query_failure_gives_empty_map test_entities test_url
              script_transport people "color:red"
              (answering (mkReply 500 None NoResult))
              people_url query_url test_db
              (mkReply 500 None (NodesResult [])) [])
    as (_ & Hstatus); [reflexivity..|].
  apply Hstatus; [reflexivity | discriminate].
Defined.

Lemma collect_last_wins_witness :
  collect (Some test_db) (∅ : NodeMap) moved_array !! 42 = Some node42_moved.
Proof.
  apply (@collect_last_wins test_entities (Some test_db)
           [node42] node42_moved [node7]).
  intros r' Hr'. apply list_elem_of_singleton in Hr' as ->. discriminate.
Defined.

Lemma NodeIndexes_one_per_name_witness :
  ∃ nis,
    (@NodeIndexes test_entities script_transport test_db
       (answering (mkReply 200 None (IndexMapResult listing)))).1
      = Returned (Some nis, None)
    ∧ length nis = 2%nat
    ∧ NoDup (Name ∘ NodeIndex_index <$> nis)
    ∧ mkNodeIndex
        (mkIndex (Some test_db) "places"
                 "http://host/db/data/index/node/places/{key}/{value}"
                 "lucene" "fulltext" false "") ∈ nis.
Proof.
  destruct (@NodeIndexes_one_per_name test_entities script_transport test_db
              (answering (mkReply 200 None (IndexMapResult listing)))
              (mkReply 200 None (IndexMapResult listing)) [] listing)
    as (nis & Hrun & Hlength & Hnames & Hmem & _); [reflexivity..|].
  exists nis. split; [exact Hrun|]. split; [exact Hlength|].
  split; [exact Hnames|]. apply Hmem.
  exists "places",
    (indexResponse.mk "http://host/db/data/index/node/places/{key}/{value}"
                      "lucene" "fulltext" "true").
  split; reflexivity.
Defined.

Lemma NodeIndexes_failure_witness :
  (NodeIndexes test_db fresh).1 = Returned (None, Some BadResponse)
  ∧ (NodeIndexes test_db unreachable).1
    = Returned (None, Some (ForeignError "connection refused")).
Proof.
  split.
  - destruct (NodeIndexes_failure test_db fresh
                (mkReply 404 None (IndexMapResult ∅)) (world fresh))
      as (_ & Hstatus); [reflexivity|].
    rewrite Hstatus; [reflexivity | reflexivity | discriminate].
  - destruct (NodeIndexes_failure test_db unreachable
                (mkReply 0 (Some (ForeignError "connection refused"))
                         (IndexMapResult ∅))
                (world unreachable))
      as (Hfailed & _); [reflexivity|].
    rewrite (Hfailed (ForeignError "connection refused")); reflexivity.
Defined.

Lemma NodeIndex_unparsable_name_witness :
  @db_NodeIndex test_entities escape_url test_transport test_db "%zz" fresh
  = (Returned (None, Some (ForeignError "invalid URL escape")), fresh).
Proof.
  apply (@NodeIndex_unparsable_name test_entities escape_url test_transport).
  reflexivity.
Defined.

Lemma NodeIndex_descriptor_is_bare_witness :
  NodeIndex_index (mkNodeIndex fetched) = mkIndex None "people" "" "" "" true "".
Proof.
  eapply (NodeIndex_descriptor_is_bare test_db "people" created). reflexivity.
Defined.

Lemma fetched_index_panics_witness :
  Delete fetched created = (Panicked, created)
  ∧ Add fetched node42 "color" "red" created = (Panicked, created)
  ∧ Remove fetched node42 "color" "red" created = (Panicked, created).
Proof.
  eapply (fetched_index_panics test_db "people" created (mkNodeIndex fetched)).
  reflexivity.
Defined.

Lemma CreateNodeIndex_success_witness :
  ∃ ni,
    (CreateNodeIndex test_db "people" "exact" "lucene" fresh).1
      = Returned (Some ni, None)
    ∧ Name (NodeIndex_index ni) = "people"
    ∧ db (NodeIndex_index ni) = Some test_db
    ∧ HrefIndex (NodeIndex_index ni) = "http://host/db/data/index/node"
    ∧ HrefTemplate (NodeIndex_index ni)
      = "http://host/db/data/index/node/people/{key}/{value}"
    ∧ Provider (NodeIndex_index ni) = "lucene"
    ∧ IndexType (NodeIndex_index ni) = "exact".
Proof.
  apply (CreateNodeIndex_success test_db "people" "exact" "lucene" fresh
           (mkReply 201 None
              (IndexResult
                 (indexResponse.mk
                    "http://host/db/data/index/node/people/{key}/{value}"
                    "lucene" "exact" "false")))
           (world created)
           (indexResponse.mk
              "http://host/db/data/index/node/people/{key}/{value}"
              "lucene" "exact" "false")); reflexivity.
Defined.

Lemma created_index_self_is_fetch_url_witness :
  sent (Delete people created).2
    = sent created ++ [mkRequest "http://host/db/data/index/node/people"
                                 "DELETE" NoData NoResult 0]
  ∧ sent (db_NodeIndex test_db "people" created).2
    = sent created ++ [mkRequest "http://host/db/data/index/node/people"
                                 "GET" NoData NoResult 0].
Proof.
  apply (created_index_self_is_fetch_url test_db "people" "exact" "lucene"
           fresh (mkNodeIndex people) created people_url); reflexivity.
Defined.

Lemma Remove_distinct_nodes_distinct_urls_witness :
  Url <$> sent (Remove people node42 "color" "red" fresh).2
    ≠ Url <$> sent (Remove people node7 "color" "red" fresh).2.
Proof.
  apply (Remove_distinct_nodes_distinct_urls people node42 node7 "color" "red"
           fresh people_url test_db);
    [reflexivity | discriminate | reflexivity | discriminate].
Defined.

End MoreChecks.
